(** * NFS Manager: a shallow embedding of [nfsmanager.py]

    The supervisor of [nfsmanager.py] keeps a list of NFS shares mounted,
    restarts the Docker container attached to a share, and guards itself
    with a PID file.  Every method of [NFSManager] that the properties
    below speak about is transcribed here as a function of a small
    state-and-exception monad:

    - the operating system (files, processes, the mount table, external
      commands, the clock) is an interface, [Platform], over an abstract
      world [W]; every call made through it is recorded, with its answer,
      in a trace of [event]s;
    - Python exceptions are values of [exn], with the class hierarchy the
      [except] clauses of the source distinguish; [sys.exit] is a separate
      outcome, since [SystemExit] is not an [Exception];
    - [return] inside a [try] or a [for] is an outcome of its own,
      resolved at the function boundary by [def].

    The fields of a share are strings (a boolean for [delete_on_mount]),
    as the JSON configuration documents them; a missing key is [None].
    The configuration itself is whatever JSON the file holds: the value
    loaded need not be an object, the value under [shares] need not be a
    list, and an element of that list need not be an object.  Logging is
    recorded in the trace and never raises.  [start], [main],
    [write_pid_file] and the signal handlers are not transcribed: no
    property below is about them.

    [Sim.host], at the end of the definitions, is a small deterministic
    machine implementing [Platform]; [OnHost], at the end of the file,
    instantiates the properties on it. *)

From Stdlib Require Import List String Ascii ZArith Bool Lia DecimalString.
Import ListNotations.
Open Scope string_scope.
Open Scope list_scope.

Set Implicit Arguments.

(** ** Python exceptions *)

Module Py.

Inductive exn_class : Type :=
  | Exception
  | OSError
  | FileNotFoundError
  | PermissionError
  | ProcessLookupError
  | ValueError
  | JSONDecodeError
  | TypeError
  | AttributeError
  | ArithmeticError
  | OverflowError
  | SubprocessError
  | TimeoutExpired.

Definition exn_class_eqb (c d : exn_class) : bool :=
  match c, d with
  | Exception, Exception | OSError, OSError
  | FileNotFoundError, FileNotFoundError
  | PermissionError, PermissionError
  | ProcessLookupError, ProcessLookupError
  | ValueError, ValueError | JSONDecodeError, JSONDecodeError
  | TypeError, TypeError | AttributeError, AttributeError
  | ArithmeticError, ArithmeticError | OverflowError, OverflowError
  | SubprocessError, SubprocessError
  | TimeoutExpired, TimeoutExpired => true
  | _, _ => false
  end.

(** The direct base class, as in Python 3 ([json.JSONDecodeError] derives
    from [ValueError], [subprocess.TimeoutExpired] from
    [subprocess.SubprocessError], [OverflowError] from
    [ArithmeticError]). *)
Definition base (c : exn_class) : option exn_class :=
  match c with
  | Exception => None
  | OSError | ValueError | TypeError | AttributeError | ArithmeticError
  | SubprocessError => Some Exception
  | FileNotFoundError | PermissionError | ProcessLookupError => Some OSError
  | JSONDecodeError => Some ValueError
  | OverflowError => Some ArithmeticError
  | TimeoutExpired => Some SubprocessError
  end.

Fixpoint issubclass_upto (depth : nat) (c d : exn_class) : bool :=
  exn_class_eqb c d ||
  match depth, base c with
  | S k, Some b => issubclass_upto k b d
  | _, _ => false
  end.

Definition issubclass : exn_class -> exn_class -> bool := issubclass_upto 3.

Record exn : Type := mk_exn { exn_type : exn_class; exn_str : string }.

Definition isinstance (e : exn) (c : exn_class) : bool :=
  issubclass (exn_type e) c.

(** [str(b)] for a bool and [str(n)] for an int, as f-strings render them. *)
Definition str_bool (b : bool) : string := if b then "True" else "False".

(** Truthiness of a string: only the empty string is falsy. *)
Definition truthy (s : string) : bool := negb (s =? "").

(** [os.path.join(a, b)] on POSIX for two components. *)
Definition path_join (a b : string) : string :=
  if prefix "/" b then b
  else if (a =? "") || (match get (length a - 1) a with
                        | Some c => Ascii.eqb c "/"%char
                        | None => false
                        end)
       then a ++ b
       else a ++ "/" ++ b.


End Py.
Import Py.

(** ** Configuration data *)

(** One element of the [shares] list of the JSON configuration: a Python
    dict, read only through [share.get(key, default)].  A field is [None]
    when the key is missing. *)
Record share : Type := mk_share {
  sh_name : option string;
  sh_server : option string;
  sh_remote_path : option string;
  sh_local_path : option string;
  sh_options : option string;
  sh_docker : option string;
  sh_delete_on_mount : option bool
}.

(** [d.get(key, default)] *)
Definition dict_get {A : Type} (field : option A) (default : A) : A :=
  match field with
  | Some v => v
  | None => default
  end.

(** The Python type of a JSON value that is not an object. *)
Inductive pytype : Type := TStr | TInt | TFloat | TBool | TList | TNoneType.

Definition type_name (t : pytype) : string :=
  match t with
  | TStr => "str"
  | TInt => "int"
  | TFloat => "float"
  | TBool => "bool"
  | TList => "list"
  | TNoneType => "NoneType"
  end.

(** What the [for] loops of [check_shares] and [cleanup] bind [share]
    to: a dict, with the fields above, or a JSON value of another type,
    which has no [get] method.  Nothing in the program checks which. *)
Inductive element : Type :=
  | Dict (fields : share)
  | Other (t : pytype).

(** [x.get] on a value that is not a dict. *)
Definition attribute_error (t : pytype) : exn :=
  mk_exn AttributeError
         ("'" ++ type_name t ++ "' object has no attribute 'get'").

(** [for ... in x] on a value that cannot be iterated. *)
Definition not_iterable (t : pytype) : exn :=
  mk_exn TypeError ("'" ++ type_name t ++ "' object is not iterable").

(** The value under the [shares] key, by what a [for] loop over it does:
    [Elements l] yields the items [l] (the items of a list; for a string
    its characters and for an object its keys, which are all [Other
    TStr]); a number, a boolean or [null] cannot be iterated. *)
Inductive shares_value : Type :=
  | Elements (l : list element)
  | NotIterable (t : pytype).

(** The dict [json.load] returns for a JSON object; only its [shares]
    key is read. *)
Record config : Type := mk_config { cfg_shares : option shares_value }.

(** What [json.load] returns: any JSON value. *)
Inductive document : Type :=
  | Object (c : config)
  | NotObject (t : pytype).

Definition PID_FILE : string := "/var/run/nfsmanager.pid".

Definition SIGTERM : Z := 15.
Definition SIGKILL : Z := 9.

Record NFSManager : Type := mk_manager {
  config_file : string;
  log_file : string
}.

(** ** Events and the platform interface *)

Inductive level : Type := INFO | WARNING | ERROR.

Definition cmd_result : Type := (Z * string * string)%type.

Inductive event : Type :=
  | EvLog (lvl : level) (msg : string)
  | EvExists (path : string) (r : bool)
  | EvReadText (path : string) (r : exn + string)
  | EvRemove (path : string) (r : exn + unit)
  | EvKill (pid : Z) (sig : Z) (r : exn + unit)
  | EvSleep (seconds : nat) (r : exn + unit)
  | EvMkdir (path : string) (r : exn + unit)
  | EvIsMount (path : string) (r : exn + bool)
  | EvRun (cmd : list string) (timeout : option nat) (r : exn + cmd_result)
  | EvListdir (path : string) (r : exn + list string)
  | EvIsFile (path : string) (r : bool)
  | EvIsLink (path : string) (r : bool)
  | EvIsDir (path : string) (r : bool)
  | EvUnlink (path : string) (r : exn + unit)
  | EvRmtree (path : string) (r : exn + unit)
  | EvJsonLoad (path : string) (r : exn + document).

(** What the program asks of its host.  Each operation answers and moves
    the world; an answer [inl e] is the exception the Python call raises.
    Nothing is assumed of the answers: any call that can raise in Python
    may raise here, [time.sleep] included. *)
Class Platform (W : Type) : Type := {
  sys_path_exists : string -> W -> bool * W;
  sys_read_text : string -> W -> (exn + string) * W;
  sys_remove : string -> W -> (exn + unit) * W;
  sys_kill : Z -> Z -> W -> (exn + unit) * W;
  sys_sleep : nat -> W -> (exn + unit) * W;
  sys_mkdir_parents : string -> W -> (exn + unit) * W;
  sys_is_mount : string -> W -> (exn + bool) * W;
  sys_subprocess_run :
    list string -> option nat -> W -> (exn + cmd_result) * W;
  sys_listdir : string -> W -> (exn + list string) * W;
  sys_isfile : string -> W -> bool * W;
  sys_islink : string -> W -> bool * W;
  sys_isdir : string -> W -> bool * W;
  sys_unlink : string -> W -> (exn + unit) * W;
  sys_rmtree : string -> W -> (exn + unit) * W;
  sys_json_load : string -> W -> (exn + document) * W;
  (** the builtins [str.strip] and [int] *)
  py_strip : string -> string;
  py_int : string -> exn + Z
}.

(** ** The monad *)

(** How a piece of a function body ends: it falls through with a value,
    raises, calls [sys.exit], or executes [return r]. *)
Inductive outcome (R A : Type) : Type :=
  | Normal (a : A)
  | Raise (e : exn)
  | Exit (code : Z)
  | Return (r : R).

Arguments Normal {R A} a.
Arguments Raise {R A} e.
Arguments Exit {R A} code.
Arguments Return {R A} r.

Definition M (W R A : Type) : Type := W -> outcome R A * W * list event.

Section Monad.
Context {W : Type}.

Definition ret {R A} (a : A) : M W R A := fun w => (Normal a, w, []).

Definition bind {R A B} (m : M W R A) (k : A -> M W R B) : M W R B :=
  fun w =>
    match m w with
    | (Normal a, w1, ev1) =>
        let '(o, w2, ev2) := k a w1 in (o, w2, ev1 ++ ev2)
    | (Raise e, w1, ev1) => (Raise e, w1, ev1)
    | (Exit c, w1, ev1) => (Exit c, w1, ev1)
    | (Return r, w1, ev1) => (Return r, w1, ev1)
    end.

Definition raise {R A} (e : exn) : M W R A := fun w => (Raise e, w, []).

(** [return r] *)
Definition return_ {R A} (r : R) : M W R A := fun w => (Return r, w, []).

(** [sys.exit(code)] *)
Definition sys_exit {R A} (code : Z) : M W R A := fun w => (Exit code, w, []).

(** The boundary of a function whose body is [body]: a [return r]
    inside it, or its last value, is the value of the call. *)
Definition def {R R'} (body : M W R R) : M W R' R :=
  fun w =>
    match body w with
    | (Normal r, w1, ev) | (Return r, w1, ev) => (Normal r, w1, ev)
    | (Raise e, w1, ev) => (Raise e, w1, ev)
    | (Exit c, w1, ev) => (Exit c, w1, ev)
    end.

(** [try: body  except cls as e: handler e] *)
Definition try_except {R A} (body : M W R A) (cls : exn_class)
    (handler : exn -> M W R A) : M W R A :=
  fun w =>
    match body w with
    | (Raise e, w1, ev1) =>
        if isinstance e cls
        then let '(o, w2, ev2) := handler e w1 in (o, w2, ev1 ++ ev2)
        else (Raise e, w1, ev1)
    | other => other
    end.

(** [try: body  except c1 as e: h1 e  except c2 as e: h2 e]; the first
    clause that matches runs, and an exception raised by a handler is
    not caught by the other clause. *)
Definition try_except2 {R A} (body : M W R A)
    (c1 : exn_class) (h1 : exn -> M W R A)
    (c2 : exn_class) (h2 : exn -> M W R A) : M W R A :=
  fun w =>
    match body w with
    | (Raise e, w1, ev1) =>
        if isinstance e c1
        then let '(o, w2, ev2) := h1 e w1 in (o, w2, ev1 ++ ev2)
        else if isinstance e c2
        then let '(o, w2, ev2) := h2 e w1 in (o, w2, ev1 ++ ev2)
        else (Raise e, w1, ev1)
    | other => other
    end.

(** [if c: body] with no [else] *)
Definition when {R} (c : bool) (body : M W R unit) : M W R unit :=
  if c then body else ret tt.

End Monad.

Declare Scope py_scope.
Delimit Scope py_scope with py.
Notation "x <- m ;; k" := (bind m (fun x => k))
  (at level 100, m at next level, right associativity) : py_scope.
Notation "m ;; k" := (bind m (fun _ => k))
  (at level 100, right associativity) : py_scope.
Notation "' pat <- m ;; k" := (bind m (fun x => let 'pat := x in k))
  (at level 100, pat pattern, m at next level, right associativity) : py_scope.
Notation "'try' body 'except' cls 'as' e '=>' handler" :=
  (try_except body cls (fun e => handler))
  (at level 100, body at level 200, cls at level 0, e name,
   handler at level 200) : py_scope.
Open Scope py_scope.

Section Loops.
Context {W : Type}.

(** [for x in l: body x] *)
Fixpoint for_each {R A} (l : list A) (body : A -> M W R unit) : M W R unit :=
  match l with
  | [] => ret tt
  | x :: rest => body x ;; for_each rest body
  end.

(** [for x in v: body x] on the value under [shares]: what cannot be
    iterated raises [TypeError] at the [for] statement. *)
Definition for_in {R} (v : shares_value) (body : element -> M W R unit)
    : M W R unit :=
  match v with
  | Elements l => for_each l body
  | NotIterable t => raise (not_iterable t)
  end.

(** The lookup of the method [get] on a value: a dict has it, and what it
    reads are the fields; any other value raises [AttributeError]. *)
Definition get_method {R} (x : element) : M W R share :=
  match x with
  | Dict fields => ret fields
  | Other t => raise (attribute_error t)
  end.

(** [config.get]: the same lookup on what [json.load] returned. *)
Definition get_method_of {R} (d : document) : M W R config :=
  match d with
  | Object c => ret c
  | NotObject t => raise (attribute_error t)
  end.

End Loops.

(** ** The primitives, as the program calls them *)

Section Primitives.
Context {W : Type} `{Platform W}.

Definition lift {R A} (r : exn + A) : outcome R A :=
  match r with
  | inl e => Raise e
  | inr a => Normal a
  end.

Definition logger_info {R} (msg : string) : M W R unit :=
  fun w => (Normal tt, w, [EvLog INFO msg]).
Definition logger_warning {R} (msg : string) : M W R unit :=
  fun w => (Normal tt, w, [EvLog WARNING msg]).
Definition logger_error {R} (msg : string) : M W R unit :=
  fun w => (Normal tt, w, [EvLog ERROR msg]).

Definition os_path_exists {R} (path : string) : M W R bool :=
  fun w => let '(r, w1) := sys_path_exists path w in
           (Normal r, w1, [EvExists path r]).

(** [with open(path, 'r') as f: f.read()] *)
Definition read_text {R} (path : string) : M W R string :=
  fun w => let '(r, w1) := sys_read_text path w in
           (lift r, w1, [EvReadText path r]).

Definition int_ {R} (s : string) : M W R Z := fun w => (lift (py_int s), w, []).

Definition os_remove {R} (path : string) : M W R unit :=
  fun w => let '(r, w1) := sys_remove path w in
           (lift r, w1, [EvRemove path r]).

Definition os_kill {R} (pid sig : Z) : M W R unit :=
  fun w => let '(r, w1) := sys_kill pid sig w in
           (lift r, w1, [EvKill pid sig r]).

Definition time_sleep {R} (seconds : nat) : M W R unit :=
  fun w => let '(r, w1) := sys_sleep seconds w in
           (lift r, w1, [EvSleep seconds r]).

(** [Path(path).mkdir(parents=True, exist_ok=True)] *)
Definition path_mkdir {R} (path : string) : M W R unit :=
  fun w => let '(r, w1) := sys_mkdir_parents path w in
           (lift r, w1, [EvMkdir path r]).

(** [Path(path).is_mount()] *)
Definition path_is_mount {R} (path : string) : M W R bool :=
  fun w => let '(r, w1) := sys_is_mount path w in
           (lift r, w1, [EvIsMount path r]).

(** [subprocess.run(cmd, capture_output=True, text=True, timeout=timeout)],
    read as [(returncode, stdout, stderr)] *)
Definition subprocess_run {R} (cmd : list string) (timeout : option nat)
    : M W R cmd_result :=
  fun w => let '(r, w1) := sys_subprocess_run cmd timeout w in
           (lift r, w1, [EvRun cmd timeout r]).

Definition os_listdir {R} (path : string) : M W R (list string) :=
  fun w => let '(r, w1) := sys_listdir path w in
           (lift r, w1, [EvListdir path r]).

Definition os_path_isfile {R} (path : string) : M W R bool :=
  fun w => let '(r, w1) := sys_isfile path w in
           (Normal r, w1, [EvIsFile path r]).
Definition os_path_islink {R} (path : string) : M W R bool :=
  fun w => let '(r, w1) := sys_islink path w in
           (Normal r, w1, [EvIsLink path r]).
Definition os_path_isdir {R} (path : string) : M W R bool :=
  fun w => let '(r, w1) := sys_isdir path w in
           (Normal r, w1, [EvIsDir path r]).

Definition os_unlink {R} (path : string) : M W R unit :=
  fun w => let '(r, w1) := sys_unlink path w in
           (lift r, w1, [EvUnlink path r]).
Definition shutil_rmtree {R} (path : string) : M W R unit :=
  fun w => let '(r, w1) := sys_rmtree path w in
           (lift r, w1, [EvRmtree path r]).

(** [with open(path, 'r') as f: json.load(f)] *)
Definition json_load {R} (path : string) : M W R document :=
  fun w => let '(r, w1) := sys_json_load path w in
           (lift r, w1, [EvJsonLoad path r]).

(** An expression statement: the value of the call is dropped. *)
Definition discard {R A} (m : M W R A) : M W R unit := m ;; ret tt.

(** [a or b], evaluating [b] only when [a] is false *)
Definition or_ {R} (a b : M W R bool) : M W R bool :=
  x <- a ;; if x then ret true else b.

End Primitives.

(** ** The methods of [NFSManager] *)

Section Manager.
Context {W : Type} `{Platform W}.
Variable self : NFSManager.

Definition remove_pid_file {R} : M W R unit := def (
  try (
    present <- os_path_exists PID_FILE ;;
    when present (
      os_remove PID_FILE ;;
      logger_info ("Fichier PID supprimé: " ++ PID_FILE))
  ) except Exception as e =>
    logger_error ("Erreur lors de la suppression du fichier PID: " ++ exn_str e)).

Definition is_running {R} : M W R bool := def (
  try (
    present <- os_path_exists PID_FILE ;;
    when present (
      content <- read_text PID_FILE ;;
      pid <- int_ (py_strip content) ;;
      try (
        os_kill pid 0 ;;
        return_ true
      ) except OSError as e =>
        remove_pid_file) ;;
    return_ false
  ) except Exception as e =>
    return_ false).


Definition read_config {R} : M W R shares_value := def (
  try_except2 (
    loaded <- json_load (config_file self) ;;
    config <- get_method_of loaded ;;
    return_ (dict_get (cfg_shares config) (Elements [])))
  FileNotFoundError (fun e =>
    logger_error
      ("Fichier de configuration non trouvé: " ++ config_file self) ;;
    sys_exit 1)
  JSONDecodeError (fun e =>
    logger_error ("Erreur de syntaxe dans le fichier JSON: " ++ exn_str e) ;;
    sys_exit 1)).

Definition run_command {R} (command : list string) (timeout : option nat)
    : M W R cmd_result := def (
  try_except2 (
    result <- subprocess_run command timeout ;;
    return_ result)
  TimeoutExpired (fun e => return_ ((-1)%Z, "", "Commande expirée"))
  Exception (fun e => return_ ((-1)%Z, "", exn_str e))).

Definition is_mounted {R} (mount_point : string) : M W R bool := def (
  try (
    m <- path_is_mount mount_point ;;
    return_ m
  ) except Exception as e =>
    return_ false).

(** The source's default for [timeout] is 5; every call site relies on it. *)
Definition is_accessible {R} (mount_point : string) (timeout : nat)
    : M W R bool := def (
  try (
    '(code, _, _) <- run_command ["ls"; mount_point] (Some timeout) ;;
    return_ (code =? 0)%Z
  ) except Exception as e =>
    return_ false).

Definition clean_directory {R} (path : string) : M W R unit := def (
  try (
    present <- os_path_exists path ;;
    when present (
      items <- os_listdir path ;;
      for_each items (fun item =>
        let item_path := path_join path item in
        try (
          plain <- or_ (os_path_isfile item_path) (os_path_islink item_path) ;;
          if plain then os_unlink item_path
          else (
            dir <- os_path_isdir item_path ;;
            when dir (shutil_rmtree item_path))
        ) except Exception as e =>
          logger_error
            ("Erreur lors de la suppression de " ++ item_path ++ ": "
             ++ exn_str e)) ;;
      logger_info ("Répertoire nettoyé: " ++ path))
  ) except Exception as e =>
    logger_error
      ("Erreur lors du nettoyage du répertoire " ++ path ++ ": " ++ exn_str e)).

Definition manage_docker {R} (container_name action : string) : M W R bool :=
  def (
  when (container_name =? "none") (return_ true) ;;
  try (
    let cmd := ["docker"; action; container_name] in
    '(code, stdout, stderr) <- run_command cmd None ;;
    if (code =? 0)%Z then (
      logger_info ("Docker " ++ action ++ " réussi pour " ++ container_name) ;;
      return_ true)
    else (
      logger_error
        ("Échec du " ++ action ++ " Docker pour " ++ container_name ++ ": "
         ++ stderr) ;;
      return_ false)
  ) except Exception as e => (
    logger_error
      ("Erreur lors de la gestion Docker pour " ++ container_name ++ ": "
       ++ exn_str e) ;;
    return_ false)).

Definition unmount_share {R} (share_ : share) : M W R bool := def (
  try (
    let local_path := dict_get (sh_local_path share_) "" in
    let docker := dict_get (sh_docker share_) "none" in
    when (negb (truthy local_path)) (
      logger_error
        ("Chemin local manquant pour le partage: "
         ++ dict_get (sh_name share_) "unknown") ;;
      return_ false) ;;
    when (negb (docker =? "none")) (
      discard (manage_docker docker "stop")) ;;
    mounted <- is_mounted local_path ;;
    when (negb mounted) (
      logger_info ("Le partage n'est pas monté sur " ++ local_path) ;;
      return_ true) ;;
    '(code, stdout, stderr) <- run_command ["umount"; "-f"; local_path] None ;;
    if (code =? 0)%Z then (
      logger_info ("Démontage réussi: " ++ local_path) ;;
      return_ true)
    else (
      logger_error
        ("Échec du démontage de " ++ local_path ++ ": " ++ stderr) ;;
      return_ false)
  ) except Exception as e => (
    logger_error
      ("Erreur lors du démontage du partage "
       ++ dict_get (sh_name share_) "unknown" ++ ": " ++ exn_str e) ;;
    return_ false)).

Definition mount_cmd (server remote_path local_path options : string)
    : list string :=
  ["mount"; "-t"; "nfs"; (server ++ ":" ++ remote_path)%string; local_path;
   "-o"; options].

Definition mount_share {R} (share_ : share) : M W R bool := def (
  try (
    let server := dict_get (sh_server share_) "" in
    let remote_path := dict_get (sh_remote_path share_) "" in
    let local_path := dict_get (sh_local_path share_) "" in
    let options := dict_get (sh_options share_) "" in
    let docker := dict_get (sh_docker share_) "none" in
    let delete_on_mount := dict_get (sh_delete_on_mount share_) false in
    when (negb (forallb truthy [server; remote_path; local_path; options])) (
      logger_error
        ("Configuration incomplète pour le partage: "
         ++ dict_get (sh_name share_) "unknown") ;;
      return_ false) ;;
    path_mkdir local_path ;;
    mounted <- is_mounted local_path ;;
    when mounted (
      logger_info
        ("Le partage " ++ server ++ ":" ++ remote_path
         ++ " est déjà monté sur " ++ local_path) ;;
      accessible <- is_accessible local_path 5 ;;
      if negb accessible then (
        logger_warning
          ("Le partage monté sur " ++ local_path
           ++ " n'est pas accessible, tentative de remontage") ;;
        discard (unmount_share share_) ;;
        time_sleep 2)
      else
        return_ true) ;;
    when delete_on_mount (
      clean_directory local_path) ;;
    let cmd := mount_cmd server remote_path local_path options in
    '(code, stdout, stderr) <- run_command cmd None ;;
    if (code =? 0)%Z then (
      time_sleep 5 ;;
      accessible <- is_accessible local_path 5 ;;
      when (negb accessible) (
        logger_error
          ("Le montage a réussi mais le partage n'est pas accessible: "
           ++ local_path) ;;
        discard (unmount_share share_) ;;
        return_ false) ;;
      logger_info
        ("Montage réussi et vérifié: " ++ server ++ ":" ++ remote_path
         ++ " sur " ++ local_path) ;;
      when (negb (docker =? "none")) (
        started <- manage_docker docker "start" ;;
        when (negb started) (
          logger_error ("Échec du démarrage du conteneur Docker " ++ docker) ;;
          return_ false)) ;;
      return_ true)
    else (
      logger_error
        ("Échec du montage de " ++ server ++ ":" ++ remote_path ++ " sur "
         ++ local_path ++ ": " ++ stderr) ;;
      return_ false)
  ) except Exception as e => (
    logger_error
      ("Erreur lors du montage du partage "
       ++ dict_get (sh_name share_) "unknown" ++ ": " ++ exn_str e) ;;
    return_ false)).

(** The [try] block of the [for] loop of [check_shares] (lines 291-311).
    The source's [continue] ends the iteration: here, the other branch. *)
Definition check_share_body {R} (share_ : share) : M W R unit :=
  let local_path := dict_get (sh_local_path share_) "" in
  if negb (truthy local_path) then
    logger_error
      ("Chemin local manquant pour le partage: "
       ++ dict_get (sh_name share_) "unknown")
  else (
    mounted <- is_mounted local_path ;;
    accessible <- (if mounted then is_accessible local_path 5
                   else ret false) ;;
    when (negb mounted || negb accessible) (
      logger_info ("Problème détecté avec le partage sur " ++ local_path) ;;
      logger_info
        ("État: monté=" ++ str_bool mounted ++ ", accessible="
         ++ str_bool accessible) ;;
      when mounted (
        logger_info ("Démontage du partage inaccessible: " ++ local_path) ;;
        discard (unmount_share share_) ;;
        time_sleep 2) ;;
      remounted <- mount_share share_ ;;
      when (negb remounted) (
        logger_error ("Échec du remontage du partage: " ++ local_path) ;;
        time_sleep 5))).

(** One iteration of that loop, on whatever the list holds: the block
    and its [except] clause (lines 290-313).  The block starts with
    [share.get] (line 291), and the handler calls [share.get] again to
    format its message (line 313), before it logs: on a value without
    [get] the block raises, and so does the handler. *)
Definition check_share {R} (x : element) : M W R unit :=
  try (
    share_ <- get_method x ;;
    check_share_body share_
  ) except Exception as e => (
    share_ <- get_method x ;;
    logger_error
      ("Erreur lors de la vérification du partage "
       ++ dict_get (sh_name share_) "unknown" ++ ": " ++ exn_str e)).

Definition check_shares {R} : M W R unit := def (
  shares <- read_config ;;
  for_in shares check_share).

(** [method(share)] for [unmount_share] and [mount_share], on whatever
    the caller passes.  Both start with [share.get] inside their [try]
    (lines 260 and 203) and both format the message of their [except
    Exception] handler with [share.get('name', 'unknown')] (lines 284
    and 254) before they log it.  On a dict the method is the one
    transcribed above.  On any other value the first [share.get] raises
    [AttributeError], the handler is entered, its own [share.get] raises
    [AttributeError] again, and that exception leaves the method with
    nothing logged. *)
Definition on_element {R A} (method : share -> M W R A) (x : element)
    : M W R A :=
  match x with
  | Dict share_ => method share_
  | Other t => raise (attribute_error t)
  end.

Definition cleanup {R} : M W R unit := def (
  logger_info "Nettoyage avant arrêt..." ;;
  remove_pid_file ;;
  shares <- read_config ;;
  for_in shares (fun share_ => discard (on_element unmount_share share_))).

End Manager.

(** ** A concrete host *)

(** A deterministic machine implementing [Platform]: one PID file, a
    process table, a mount table, an NFS client and a Docker daemon that
    fail where the host says so.  It is the test bench on which the
    properties are instantiated. *)
Module Sim.

Record host : Type := mk_host {
  pid_file : option string;        (* contents of [PID_FILE], if present *)
  processes : list (Z * nat);      (* live pids; seconds each needs to exit
                                      once it has received SIGTERM *)
  terminating : list Z;            (* pids that have received SIGTERM *)
  conf : exn + document;           (* what loading the configuration gives *)
  mounted : list string;           (* the mount table, by mount point *)
  stale : list string;             (* mount points that hang once mounted *)
  unreachable : list string;       (* [server:path] sources refused by mount *)
  broken_containers : list string; (* containers Docker cannot act on *)
  alarm : option exn               (* raised out of the next sleep, if any *)
}.

Definition mem (s : string) (l : list string) : bool := existsb (String.eqb s) l.
Definition drop (s : string) (l : list string) : list string :=
  filter (fun x => negb (String.eqb s x)) l.
Definition alive (pid : Z) (h : host) : bool :=
  existsb (fun p => Z.eqb (fst p) pid) (processes h).

Definition set_pid_file (h : host) (f : option string) : host :=
  mk_host f (processes h) (terminating h) (conf h) (mounted h) (stale h)
          (unreachable h) (broken_containers h) (alarm h).
Definition set_processes (h : host) (ps : list (Z * nat)) (ts : list Z) : host :=
  mk_host (pid_file h) ps ts (conf h) (mounted h) (stale h)
          (unreachable h) (broken_containers h) (alarm h).
Definition set_mounted (h : host) (ms : list string) : host :=
  mk_host (pid_file h) (processes h) (terminating h) (conf h) ms (stale h)
          (unreachable h) (broken_containers h) (alarm h).
Definition set_alarm (h : host) (a : option exn) : host :=
  mk_host (pid_file h) (processes h) (terminating h) (conf h) (mounted h)
          (stale h) (unreachable h) (broken_containers h) a.

Definition no_such_file : exn := mk_exn FileNotFoundError "No such file or directory".
Definition no_such_process : exn := mk_exn ProcessLookupError "No such process".

Definition host_exists (path : string) (h : host) : bool * host :=
  (if path =? PID_FILE then
     match pid_file h with Some _ => true | None => false end
   else true, h).

Definition host_read_text (path : string) (h : host) : (exn + string) * host :=
  (if path =? PID_FILE then
     match pid_file h with Some c => inr c | None => inl no_such_file end
   else inl no_such_file, h).

Definition host_remove (path : string) (h : host) : (exn + unit) * host :=
  if path =? PID_FILE then
    match pid_file h with
    | Some _ => (inr tt, set_pid_file h None)
    | None => (inl no_such_file, h)
    end
  else (inl no_such_file, h).

(** [os.kill] converts [pid] to a C [int] before anything is sent. *)
Definition out_of_range (pid : Z) : option exn :=
  if (pid >? 2147483647)%Z then
    Some (mk_exn OverflowError "signed integer is greater than maximum")
  else if (pid <? -2147483648)%Z then
    Some (mk_exn OverflowError "signed integer is less than minimum")
  else None.

(** Process groups are not simulated: a [pid] that is not in the process
    table names no process. *)
Definition host_kill (pid sig : Z) (h : host) : (exn + unit) * host :=
  match out_of_range pid with
  | Some e => (inl e, h)
  | None =>
  if alive pid h then
    if (sig =? SIGKILL)%Z then
      (inr tt, set_processes h
                 (filter (fun p => negb (Z.eqb (fst p) pid)) (processes h))
                 (terminating h))
    else if (sig =? SIGTERM)%Z then
      (inr tt, set_processes h (processes h) (pid :: terminating h))
    else (inr tt, h)
  else (inl no_such_process, h)
  end.

(** During a sleep of [n] seconds every terminating process gets [n]
    seconds closer to its exit, and is gone when none are left.  A
    pending alarm interrupts the sleep at once. *)
Definition host_sleep (n : nat) (h : host) : (exn + unit) * host :=
  match alarm h with
  | Some e => (inl e, set_alarm h None)
  | None =>
      let dying p := existsb (Z.eqb (fst p)) (terminating h) in
      let survivors :=
        filter (fun p => negb (dying p) || (n <? snd p)%nat) (processes h) in
      (inr tt,
       set_processes h
         (map (fun p => if dying p then (fst p, snd p - n) else p) survivors)
         (terminating h))
  end.

Definition host_run (cmd : list string) (timeout : option nat) (h : host)
    : (exn + cmd_result) * host :=
  match cmd with
  | ["mount"; "-t"; "nfs"; source; local_path; "-o"; _] =>
      if mem source (unreachable h)
      then (inr (32%Z, "", "mount.nfs: Connection timed out"), h)
      else (inr (0%Z, "", ""), set_mounted h (local_path :: mounted h))
  | ["umount"; "-f"; local_path] =>
      if mem local_path (mounted h)
      then (inr (0%Z, "", ""), set_mounted h (drop local_path (mounted h)))
      else (inr (32%Z, "", "umount: not mounted"), h)
  | ["ls"; path] =>
      if mem path (mounted h) && mem path (stale h)
      then match timeout with
           | Some _ => (inl (mk_exn TimeoutExpired "timed out"), h)
           | None => (inr (2%Z, "", "ls: Stale file handle"), h)
           end
      else (inr (0%Z, "", ""), h)
  | ["docker"; _; name] =>
      if mem name (broken_containers h)
      then (inr (1%Z, "", "Error response from daemon"), h)
      else (inr (0%Z, name, ""), h)
  | _ => (inl (mk_exn FileNotFoundError "No such file or directory"), h)
  end.

(** The files of the host hold ASCII text.  [str.isspace] on ASCII: the
    blank, the controls 9 to 13 and the separators 28 to 31. *)
Definition is_space (c : ascii) : bool :=
  match c with
  | " "%char | "009"%char | "010"%char | "011"%char | "012"%char
  | "013"%char | "028"%char | "029"%char | "030"%char | "031"%char => true
  | _ => false
  end.

Fixpoint lstrip (s : string) : string :=
  match s with
  | String c rest => if is_space c then lstrip rest else s
  | EmptyString => EmptyString
  end.

Fixpoint rstrip (s : string) : string :=
  match s with
  | String c rest =>
      match rstrip rest with
      | EmptyString => if is_space c then EmptyString else String c EmptyString
      | kept => String c kept
      end
  | EmptyString => EmptyString
  end.

Definition strip (s : string) : string := rstrip (lstrip s).

Definition digit (c : ascii) : option Z :=
  let n := nat_of_ascii c in
  if (48 <=? n)%nat && (n <=? 57)%nat then Some (Z.of_nat (n - 48)) else None.

(** The digits of a decimal literal, [acc] being the value read so far.
    A single underscore may separate two digits; [after_digit] says
    whether the character before was a digit. *)
Fixpoint digits (after_digit : bool) (acc : Z) (s : string) : option Z :=
  match s with
  | EmptyString => if after_digit then Some acc else None
  | String c rest =>
      match digit c with
      | Some d => digits true (10 * acc + d)%Z rest
      | None =>
          if Ascii.eqb c "_"%char && after_digit then digits false acc rest
          else None
      end
  end.

(** [int(s)] on ASCII text: blanks around an optional sign and a decimal
    literal.  The message shows [repr(s)], written here as for a text
    without quotes, backslashes or control characters. *)
Definition int_of_string (s : string) : exn + Z :=
  let bad :=
    inl (mk_exn ValueError
           ("invalid literal for int() with base 10: '" ++ s ++ "'")) in
  match strip s with
  | String "-"%char body =>
      match digits false 0 body with Some n => inr (- n)%Z | None => bad end
  | String "+"%char body =>
      match digits false 0 body with Some n => inr n | None => bad end
  | body => match digits false 0 body with Some n => inr n | None => bad end
  end.

#[export] Instance host_platform : Platform host := {
  sys_path_exists := host_exists;
  sys_read_text := host_read_text;
  sys_remove := host_remove;
  sys_kill := host_kill;
  sys_sleep := host_sleep;
  sys_mkdir_parents := fun _ h => (inr tt, h);
  sys_is_mount := fun path h => (inr (mem path (mounted h)), h);
  sys_subprocess_run := host_run;
  sys_listdir := fun _ h => (inr [], h);
  sys_isfile := fun _ h => (false, h);
  sys_islink := fun _ h => (false, h);
  sys_isdir := fun _ h => (false, h);
  sys_unlink := fun _ h => (inr tt, h);
  sys_rmtree := fun _ h => (inr tt, h);
  sys_json_load := fun _ h => (conf h, h);
  py_strip := strip;
  py_int := int_of_string
}.

(** The share of the scenarios: [nfs1:/export/data] on [/mnt/data]. *)
Definition data_share (docker : string) : share :=
  mk_share (Some "data") (Some "nfs1") (Some "/export/data")
           (Some "/mnt/data") (Some "ro") (Some docker) None.

Definition manager : NFSManager :=
  mk_manager "/etc/nfsmanager/config.json" "/var/log/nfsmanager.log".

Definition run (A : Type) : Type := (outcome unit A * host * list event)%type.
Definition result {A : Type} (r : run A) : outcome unit A := fst (fst r).
Definition final {A : Type} (r : run A) : host := snd (fst r).
Definition trace {A : Type} (r : run A) : list event := snd r.

(** A configuration file whose [shares] are the objects [shares]. *)
Definition configured (shares : list share) : exn + document :=
  inr (Object (mk_config (Some (Elements (map Dict shares))))).

(** A host with nothing mounted, no PID file and [shares] configured. *)
Definition fresh (shares : list share) : host :=
  mk_host None [] [] (configured shares) [] [] [] [] None.

(** *** Scenarios *)

Definition app_share : share := data_share "app1".
Definition plain_share : share := data_share "none".
Definition logs_share : share :=
  mk_share (Some "logs") (Some "nfs2") (Some "/export/logs")
           (Some "/mnt/logs") (Some "rw") None (Some true).

(** [options] is missing from this one. *)
Definition incomplete_share : share :=
  mk_share (Some "data") (Some "nfs1") (Some "/export/data")
           (Some "/mnt/data") None (Some "app1") None.

(** The export of [/mnt/data] hangs as soon as it is mounted. *)
Definition stale_host : host :=
  mk_host None [] [] (configured [app_share]) []
          ["/mnt/data"] [] [] None.

(** Docker cannot start [app1]. *)
Definition broken_docker_host : host :=
  mk_host None [] [] (configured [app_share]) [] [] []
          ["app1"] None.

(** A PID file left behind by process 4242, which is gone. *)
Definition stale_pid_host : host :=
  mk_host (Some "4242") [] [] (configured []) [] [] [] [] None.


(** [/mnt/data] is mounted and hangs, [/mnt/logs] is not mounted, and the
    next sleep is interrupted by an error. *)
Definition interrupted_host : host :=
  mk_host None [] [] (configured [plain_share; logs_share])
          ["/mnt/data"] ["/mnt/data"] [] []
          (Some (mk_exn Exception "interrupted")).


(** Both shares are mounted and the supervisor is shutting down. *)
Definition shutdown_host : host :=
  mk_host (Some "4242") [] [] (configured [app_share; logs_share])
          ["/mnt/logs"; "/mnt/data"] [] [] [] None.

(** The same, the configuration file having been deleted meanwhile. *)
Definition no_config_host : host :=
  mk_host (Some "4242") [] [] (inl no_such_file)
          ["/mnt/logs"; "/mnt/data"] [] [] [] None.

(** The first element of [shares] is a string, as in
    [{"shares": ["oops", {"name": "data", ...}]}]; nothing is mounted. *)
Definition malformed_host : host :=
  mk_host None [] []
          (inr (Object (mk_config
                          (Some (Elements [Other TStr; Dict plain_share])))))
          [] [] [] [] None.

(** The same list, [/mnt/data] being mounted, at shutdown. *)
Definition malformed_shutdown_host : host :=
  mk_host (Some "4242") [] []
          (inr (Object (mk_config
                          (Some (Elements [Other TStr; Dict plain_share])))))
          ["/mnt/data"] [] [] [] None.

End Sim.

(** * Properties *)

Unset Implicit Arguments.

(** ** Reading traces *)

(** The fields [mount_share] reads, with the defaults of [share.get]. *)
Definition server_of (s : share) : string := dict_get (sh_server s) "".
Definition remote_path_of (s : share) : string := dict_get (sh_remote_path s) "".
Definition local_path_of (s : share) : string := dict_get (sh_local_path s) "".
Definition options_of (s : share) : string := dict_get (sh_options s) "".
Definition docker_of (s : share) : string := dict_get (sh_docker s) "none".
Definition name_of (s : share) : string := dict_get (sh_name s) "unknown".

(** The mount command of a share, and its accessibility probe. *)
Definition mount_of (s : share) : list string :=
  mount_cmd (server_of s) (remote_path_of s) (local_path_of s) (options_of s).
Definition probe_of (s : share) : list string := ["ls"; local_path_of s].

(** The return code a caller of [run_command] sees for an answer of
    [subprocess.run]. *)
Definition seen (r : exn + cmd_result) : cmd_result :=
  match r with
  | inr result => result
  | inl e =>
      if isinstance e TimeoutExpired then ((-1)%Z, "", "Commande expirée")
      else ((-1)%Z, "", exn_str e)
  end.

Definition exit_code (r : exn + cmd_result) : Z := fst (fst (seen r)).

(** The command ran and exited with status 0. *)
Definition succeeded (r : exn + cmd_result) : bool := (exit_code r =? 0)%Z.

(** The answer [is_mounted] derives from [Path.is_mount]. *)
Definition says_mounted (r : exn + bool) : bool :=
  match r with
  | inr b => b
  | inl _ => false
  end.

(** [e] records a run of the external program [prog]. *)
Definition runs (prog : string) (e : event) : bool :=
  match e with
  | EvRun (p :: _) _ _ => p =? prog
  | _ => false
  end.

Definition is_run (e : event) : bool :=
  match e with
  | EvRun _ _ _ => true
  | _ => false
  end.

Definition never (p : event -> bool) (evs : list event) : bool :=
  forallb (fun e => negb (p e)) evs.

(** [e] records [docker start ...]. *)
Definition starts_workload (e : event) : bool :=
  match e with
  | EvRun (p :: a :: _) _ _ => (p =? "docker") && (a =? "start")
  | _ => false
  end.

(** [e] records a query of the mount table. *)
Definition is_mount_query (e : event) : bool :=
  match e with
  | EvIsMount _ _ => true
  | _ => false
  end.

(** [k] liveness probes of [pid] that found it alive, each followed by
    the one-second sleep. *)
Fixpoint polls (pid : Z) (k : nat) : list event :=
  match k with
  | O => []
  | S k' => EvKill pid 0 (inr tt) :: EvSleep 1 (inr tt) :: polls pid k'
  end.

(** [e] records a liveness probe, [os.kill(pid, 0)]. *)
Definition is_poll (e : event) : bool :=
  match e with
  | EvKill _ sig _ => (sig =? 0)%Z
  | _ => false
  end.

(** [e] records a call of [os.kill] or [time.sleep] that raised. *)
Definition interrupted (e : event) : bool :=
  match e with
  | EvKill _ _ (inl _) | EvSleep _ (inl _) => true
  | _ => false
  end.

(** The elements of [l] are handled one after the other by [f], each
    call returning normally, from the world [w] to the world [w']; [evs]
    is the trace of all the calls. *)
Fixpoint each_in_turn {W A R : Type} (f : A -> M W R unit) (l : list A)
    (w w' : W) (evs : list event) : Prop :=
  match l with
  | [] => w' = w /\ evs = []
  | x :: rest =>
      exists w1 ev1 ev2,
        f x w = (Normal tt, w1, ev1) /\ evs = ev1 ++ ev2 /\
        each_in_turn f rest w1 w' ev2
  end.

(** The dicts at the head of a list of elements, and the type of the
    first element that is not a dict, if there is one. *)
Fixpoint leading_dicts (l : list element) : list share * option pytype :=
  match l with
  | [] => ([], None)
  | Dict s :: rest =>
      let '(ds, stop) := leading_dicts rest in (s :: ds, stop)
  | Other t :: _ => ([], Some t)
  end.

(** How a loop over elements ends when its body raises on the first
    element that is not a dict. *)
Definition loop_outcome {R : Type} (stop : option pytype) : outcome R unit :=
  match stop with
  | None => Normal tt
  | Some t => Raise (attribute_error t)
  end.

(** What [remove_pid_file] leaves in the trace: the file was already
    gone, or [os.remove] was called on it. *)
Definition pid_file_removal (evs : list event) : Prop :=
  evs = [EvExists PID_FILE false] \/
  (exists lvl msg,
     evs = [EvExists PID_FILE true; EvRemove PID_FILE (inr tt); EvLog lvl msg]) \/
  (exists e lvl msg,
     evs = [EvExists PID_FILE true; EvRemove PID_FILE (inl e); EvLog lvl msg]).



(** ** Lists with one marked event *)

Section Occurrences.
Variable p : event -> bool.

Lemma never_app (l1 l2 : list event) :
  never p (l1 ++ l2) = never p l1 && never p l2.
Proof. apply forallb_app. Qed.

Lemma never_miss (l pre post : list event) (y : event) :
  l = pre ++ y :: post -> p y = true -> never p l = true -> False.
Proof.
  intros -> Hy Hn. rewrite never_app in Hn.
  apply andb_true_iff in Hn as [_ Hn]. simpl in Hn. rewrite Hy in Hn.
  discriminate.
Qed.

Lemma peel_cons (a : event) (l pre post : list event) (y : event) :
  a :: l = pre ++ y :: post -> p y = true -> p a = false ->
  exists pre', pre = a :: pre' /\ l = pre' ++ y :: post.
Proof.
  intros Heq Hy Ha. destruct pre as [|b pre']; simpl in Heq.
  - injection Heq as -> _. congruence.
  - injection Heq as -> Hl. eauto.
Qed.

Lemma peel_app (l1 l pre post : list event) (y : event) :
  l1 ++ l = pre ++ y :: post -> p y = true -> never p l1 = true ->
  exists pre', pre = l1 ++ pre' /\ l = pre' ++ y :: post.
Proof.
  revert pre. induction l1 as [|a l1 IH]; intros pre Heq Hy Hn; simpl in *.
  - eauto.
  - apply andb_true_iff in Hn as [Ha Hn]. apply negb_true_iff in Ha.
    destruct (peel_cons _ _ _ _ _ Heq Hy Ha) as (pre' & -> & Hl).
    destruct (IH _ Hl Hy Hn) as (pre'' & -> & Hl'). eauto.
Qed.

Lemma hit_cons (a : event) (l pre post : list event) (y : event) :
  a :: l = pre ++ y :: post -> p y = true -> never p l = true ->
  pre = [] /\ y = a /\ post = l.
Proof.
  intros Heq Hy Hn. destruct pre as [|b pre']; simpl in Heq.
  - injection Heq as -> ->. auto.
  - injection Heq as _ Hl. exfalso. exact (never_miss _ _ _ _ Hl Hy Hn).
Qed.

Lemma never_nil : never p [] = true.
Proof. reflexivity. Qed.

Lemma never_cons (a : event) (l : list event) :
  p a = false -> never p l = true -> never p (a :: l) = true.
Proof. intros Ha Hl. unfold never in *. simpl. rewrite Ha, Hl. reflexivity. Qed.

Lemma never_app_intro (l1 l2 : list event) :
  never p l1 = true -> never p l2 = true -> never p (l1 ++ l2) = true.
Proof. intros H1 H2. rewrite never_app, H1, H2. reflexivity. Qed.

End Occurrences.

Lemma never_runs (prog : string) (l : list event) :
  never is_run l = true -> never (runs prog) l = true.
Proof.
  unfold never. rewrite !forallb_forall. intros Hl e He.
  specialize (Hl e He). destruct e; try reflexivity.
  simpl in Hl. discriminate.
Qed.

Lemma never_starts (l : list event) :
  never is_run l = true -> never starts_workload l = true.
Proof.
  unfold never. rewrite !forallb_forall. intros Hl e He.
  specialize (Hl e He). destruct e; try reflexivity.
  simpl in Hl. discriminate.
Qed.

Lemma never_interrupted_polls (pid : Z) (k : nat) :
  never interrupted (polls pid k) = true.
Proof. induction k as [|k IH]; [reflexivity|exact IH]. Qed.

Lemma never_interrupted_removal (rm : list event) :
  pid_file_removal rm -> never interrupted rm = true.
Proof.
  intros [-> | [(lvl & msg & ->) | (e & lvl & msg & ->)]]; reflexivity.
Qed.

Lemma polls_length (pid : Z) (k : nat) : List.length (polls pid k) = 2 * k.
Proof. induction k as [|k IH]; simpl; [reflexivity|]. rewrite IH. lia. Qed.

Lemma polls_split (pid : Z) (k n : nat) :
  k <= n -> polls pid n = polls pid k ++ polls pid (n - k).
Proof.
  revert n. induction k as [|k IH]; intros n Hle; simpl.
  - rewrite Nat.sub_0_r. reflexivity.
  - destruct n as [|n]; [lia|]. simpl. rewrite (IH n) by lia. reflexivity.
Qed.

Lemma triple_eta (A B C : Type) (p : A * B * C) :
  p = (fst (fst p), snd (fst p), snd p).
Proof. destruct p as [[a b] c]. reflexivity. Qed.

(** [no_event] proves that a trace holds no event of a kind, from the
    events it lists and what is known of its segments. *)
Ltac no_event :=
  repeat first
    [ apply never_nil
    | assumption
    | apply never_runs; assumption
    | apply never_starts; assumption
    | apply never_interrupted_polls
    | apply never_interrupted_removal; assumption
    | apply never_cons; [reflexivity|]
    | apply never_app_intro ].

(** [locate Hevs] finds, in a trace that is known event by event, the one
    event of kind [p] that the decomposition [Hevs] of the trace
    singles out. *)
Ltac locate p Hevs :=
  repeat match type of Hevs with
         | ?a :: ?l = ?pre ++ ?y :: ?post =>
             first
               [ let pre' := fresh "pre" in
                 let Hpre := fresh "Hpre" in
                 destruct (peel_cons p a l pre post y Hevs
                             ltac:(reflexivity) ltac:(reflexivity))
                   as (pre' & Hpre & Hevs');
                 clear Hevs; rename Hevs' into Hevs
               | destruct (hit_cons p a l pre post y Hevs
                             ltac:(reflexivity) ltac:(no_event))
                   as (? & ? & ?);
                 clear Hevs ]
         | ?l1 ++ ?l = ?pre ++ ?y :: ?post =>
             let pre' := fresh "pre" in
             let Hpre := fresh "Hpre" in
             destruct (peel_app p l1 l pre post y Hevs
                         ltac:(reflexivity) ltac:(no_event))
               as (pre' & Hpre & Hevs');
             clear Hevs; rename Hevs' into Hevs
         | [] = ?pre ++ ?y :: ?post =>
             exfalso; exact (app_cons_not_nil pre post y Hevs)
         | ?l = ?pre ++ ?y :: ?post =>
             is_var l; exfalso;
             exact (never_miss p l pre post y Hevs
                      ltac:(reflexivity) ltac:(no_event))
         end.

(** ** Symbolic execution *)

(** [unfold_monad] exposes the state passing of a body; [answer] asks the
    platform for the answer of the next call, or decides the next test. *)
Ltac unfold_monad :=
  cbv beta iota zeta delta
    [def try_except try_except2 bind when ret return_ raise sys_exit discard
     or_ lift logger_info logger_warning logger_error os_path_exists
     read_text int_ os_remove os_kill time_sleep path_mkdir path_is_mount
     subprocess_run os_listdir os_path_isfile os_path_islink os_path_isdir
     os_unlink shutil_rmtree json_load];
  cbn [app negb].

(** Case analysis on what a command answered, as its caller reads it. *)
Ltac read_codes :=
  unfold succeeded, exit_code;
  repeat match goal with
         | |- context [seen ?r] => destruct (seen r) as [[? ?] ?]
         end;
  cbn [fst snd];
  repeat match goal with
         | |- context [(?c =? 0)%Z] => destruct (c =? 0)%Z
         end.

Ltac answer :=
  match goal with
  | |- context [sys_path_exists ?a ?w] =>
      destruct (sys_path_exists a w) as [[|] ?] eqn:?
  | |- context [sys_read_text ?a ?w] =>
      destruct (sys_read_text a w) as [[?|?] ?] eqn:?
  | |- context [sys_remove ?a ?w] =>
      destruct (sys_remove a w) as [[?|[]] ?] eqn:?
  | |- context [sys_kill ?a ?b ?w] =>
      destruct (sys_kill a b w) as [[?|[]] ?] eqn:?
  | |- context [sys_sleep ?a ?w] =>
      destruct (sys_sleep a w) as [[?|[]] ?] eqn:?
  | |- context [sys_mkdir_parents ?a ?w] =>
      destruct (sys_mkdir_parents a w) as [[?|[]] ?] eqn:?
  | |- context [sys_is_mount ?a ?w] =>
      destruct (sys_is_mount a w) as [? ?] eqn:?
  | |- context [sys_subprocess_run ?a ?b ?w] =>
      destruct (sys_subprocess_run a b w) as [? ?] eqn:?
  | |- context [sys_json_load ?a ?w] =>
      destruct (sys_json_load a w) as [[?|?] ?] eqn:?
  | |- context [py_int ?a] =>
      destruct (py_int a) as [?|?] eqn:?
  | |- context [isinstance ?e ?c] =>
      destruct (isinstance e c) eqn:?
  end.

(** ** The helpers, one platform call at a time *)

Section Helpers.
Context {W : Type} `{Platform W}.

Lemma isinstance_Exception (e : exn) : isinstance e Exception = true.
Proof. destruct e as [c s]. destruct c; reflexivity. Qed.

Lemma run_command_eq (R : Type) (cmd : list string) (t : option nat) (w : W) :
  run_command (R := R) cmd t w =
  let '(r, w1) := sys_subprocess_run cmd t w in
  (Normal (seen r), w1, [EvRun cmd t r]).
Proof.
  unfold run_command, def, try_except2, bind, subprocess_run, return_.
  destruct (sys_subprocess_run cmd t w) as [[e|result] w1]; simpl.
  - destruct (isinstance e TimeoutExpired); [reflexivity|].
    rewrite isinstance_Exception. reflexivity.
  - reflexivity.
Qed.

Lemma is_mounted_eq (R : Type) (path : string) (w : W) :
  is_mounted (R := R) path w =
  let '(r, w1) := sys_is_mount path w in
  (Normal (says_mounted r), w1, [EvIsMount path r]).
Proof.
  unfold is_mounted, def, try_except, bind, path_is_mount, return_.
  destruct (sys_is_mount path w) as [[e|b] w1]; simpl.
  - rewrite isinstance_Exception. reflexivity.
  - reflexivity.
Qed.

Lemma is_accessible_eq (R : Type) (path : string) (t : nat) (w : W) :
  is_accessible (R := R) path t w =
  let '(r, w1) := sys_subprocess_run ["ls"; path] (Some t) w in
  (Normal (succeeded r), w1, [EvRun ["ls"; path] (Some t) r]).
Proof.
  unfold is_accessible, def, try_except, bind, return_.
  rewrite run_command_eq.
  destruct (sys_subprocess_run ["ls"; path] (Some t) w) as [r w1].
  unfold succeeded, exit_code.
  destruct (seen r) as [[code out] err]. reflexivity.
Qed.

Lemma remove_pid_file_eq (R : Type) (w : W) :
  remove_pid_file (R := R) w =
  let '(present, w1) := sys_path_exists PID_FILE w in
  if present then
    let '(r, w2) := sys_remove PID_FILE w1 in
    (Normal tt, w2,
     [EvExists PID_FILE true; EvRemove PID_FILE r;
      match r with
      | inr _ => EvLog INFO ("Fichier PID supprimé: " ++ PID_FILE)
      | inl e =>
          EvLog ERROR
            ("Erreur lors de la suppression du fichier PID: " ++ exn_str e)
      end])
  else (Normal tt, w1, [EvExists PID_FILE false]).
Proof.
  unfold remove_pid_file, def, try_except, bind, when, os_path_exists,
    os_remove, logger_info, logger_error, ret.
  destruct (sys_path_exists PID_FILE w) as [[|] w1]; [|reflexivity].
  destruct (sys_remove PID_FILE w1) as [[e|[]] w2]; simpl.
  - rewrite isinstance_Exception. reflexivity.
  - reflexivity.
Qed.

Lemma remove_pid_file_total (R : Type) (w : W) :
  exists w1 evs,
    remove_pid_file (R := R) w = (Normal tt, w1, evs) /\
    pid_file_removal evs /\ never is_run evs = true.
Proof.
  rewrite remove_pid_file_eq. unfold pid_file_removal.
  destruct (sys_path_exists PID_FILE w) as [[|] w1].
  - destruct (sys_remove PID_FILE w1) as [[e|[]] w2];
      do 2 eexists; (split; [reflexivity|]); split; try reflexivity;
      right; [right|left]; eauto.
  - do 2 eexists. split; [reflexivity|]. split; [left|]; reflexivity.
Qed.

Lemma manage_docker_eq (R : Type) (name action : string) (w : W) :
  (name =? "none") = false ->
  manage_docker (R := R) name action w =
  let '(r, w1) := sys_subprocess_run ["docker"; action; name] None w in
  (Normal (succeeded r), w1,
   [EvRun ["docker"; action; name] None r;
    if succeeded r
    then EvLog INFO ("Docker " ++ action ++ " réussi pour " ++ name)
    else EvLog ERROR
           ("Échec du " ++ action ++ " Docker pour " ++ name ++ ": "
            ++ snd (seen r))]).
Proof.
  intros Hname.
  unfold manage_docker, def, try_except, bind, when, return_, ret.
  rewrite Hname. rewrite run_command_eq.
  destruct (sys_subprocess_run ["docker"; action; name] None w) as [r w1].
  unfold succeeded, exit_code.
  destruct (seen r) as [[code out] err]; simpl.
  destruct (code =? 0)%Z; reflexivity.
Qed.

(** The workload stop of [unmount_share]: nothing for the sentinel, one
    [docker stop] otherwise. *)
Lemma unmount_stop_eq (R : Type) (docker : string) (w : W) :
  when (negb (docker =? "none"))
       (discard (manage_docker (R := R) docker "stop")) w =
  if docker =? "none" then (Normal tt, w, [])
  else
    let '(r, w1) := sys_subprocess_run ["docker"; "stop"; docker] None w in
    (Normal tt, w1,
     [EvRun ["docker"; "stop"; docker] None r;
      if succeeded r
      then EvLog INFO ("Docker stop réussi pour " ++ docker)
      else EvLog ERROR
             ("Échec du stop Docker pour " ++ docker ++ ": " ++ snd (seen r))]).
Proof.
  unfold when, discard, bind, ret. destruct (docker =? "none") eqn:Hd; simpl.
  - reflexivity.
  - rewrite (manage_docker_eq _ _ _ _ Hd).
    destruct (sys_subprocess_run ["docker"; "stop"; docker] None w) as [r w0].
    reflexivity.
Qed.

(** [unmount_share] in straight-line form. *)
Lemma unmount_share_eq (R : Type) (s : share) (w : W) :
  unmount_share (R := R) s w =
  let local_path := dict_get (sh_local_path s) "" in
  let docker := dict_get (sh_docker s) "none" in
  if local_path =? "" then
    (Normal false, w,
     [EvLog ERROR
        ("Chemin local manquant pour le partage: "
         ++ dict_get (sh_name s) "unknown")])
  else
    let '(_, w0, ev0) :=
      when (negb (docker =? "none"))
           (discard (manage_docker (R := bool) docker "stop")) w in
    let '(r1, w1) := sys_is_mount local_path w0 in
    if says_mounted r1 then
      let '(r2, w2) := sys_subprocess_run ["umount"; "-f"; local_path] None w1 in
      (Normal (succeeded r2), w2,
       ev0 ++ [EvIsMount local_path r1;
               EvRun ["umount"; "-f"; local_path] None r2;
               if succeeded r2
               then EvLog INFO ("Démontage réussi: " ++ local_path)
               else EvLog ERROR
                      ("Échec du démontage de " ++ local_path ++ ": "
                       ++ snd (seen r2))])
    else
      (Normal true, w1,
       ev0 ++ [EvIsMount local_path r1;
               EvLog INFO ("Le partage n'est pas monté sur " ++ local_path)]).
Proof.
  unfold unmount_share, truthy. cbv zeta.
  set (lp := dict_get (sh_local_path s) "").
  set (d := dict_get (sh_docker s) "none").
  rewrite unmount_stop_eq.
  unfold_monad.
  destruct (lp =? "") eqn:Hlp; unfold_monad; [reflexivity|].
  destruct (d =? "none") eqn:Hd; unfold_monad.
  - rewrite is_mounted_eq. answer.
    match goal with |- context [says_mounted ?r] => destruct (says_mounted r) end;
      unfold_monad; [|reflexivity].
    rewrite run_command_eq. answer. read_codes; reflexivity.
  - rewrite (manage_docker_eq _ _ _ _ Hd). answer. unfold_monad.
    rewrite is_mounted_eq. answer.
    match goal with |- context [says_mounted ?r] => destruct (says_mounted r) end;
      unfold_monad; [|reflexivity].
    rewrite run_command_eq. answer. read_codes; reflexivity.
Qed.

(** [unmount_share] always returns, and runs nothing but [docker] and
    [umount]. *)
Lemma unmount_share_total (R : Type) (s : share) (w : W) :
  exists b w1 evs,
    unmount_share (R := R) s w = (Normal b, w1, evs) /\
    never (runs "mount") evs = true /\
    never starts_workload evs = true.
Proof.
  rewrite unmount_share_eq. cbv zeta. rewrite unmount_stop_eq.
  destruct (dict_get (sh_local_path s) "" =? ""); [eauto 6|].
  destruct (dict_get (sh_docker s) "none" =? "none"); repeat answer;
    match goal with |- context [says_mounted ?r] => destruct (says_mounted r) end;
    repeat answer; do 3 eexists; (split; [reflexivity|]);
    repeat match goal with
           | |- context [succeeded ?r] => destruct (succeeded r)
           end;
    split; reflexivity.
Qed.

Lemma for_each_total (R A : Type) (p : event -> bool)
    (body : A -> M W R unit) :
  (forall x w, exists w1 evs,
      body x w = (Normal tt, w1, evs) /\ never p evs = true) ->
  forall l w, exists w1 evs,
      for_each l body w = (Normal tt, w1, evs) /\ never p evs = true.
Proof.
  intros Hbody. induction l as [|x l IH]; intros w; simpl.
  - unfold ret. eauto.
  - unfold bind. destruct (Hbody x w) as (w1 & ev1 & -> & Hev1).
    destruct (IH w1) as (w2 & ev2 & -> & Hev2).
    do 2 eexists. split; [reflexivity|].
    rewrite never_app, Hev1, Hev2. reflexivity.
Qed.

(** [clean_directory] always returns and runs no external command. *)
Lemma clean_directory_total (R : Type) (path : string) (w : W) :
  exists w1 evs,
    clean_directory (R := R) path w = (Normal tt, w1, evs) /\
    never is_run evs = true.
Proof.
  unfold clean_directory.
  match goal with
  | |- context [for_each _ ?b] => set (body := b)
  end.
  assert (Hloop : forall l w, exists w1 evs,
             for_each (R := unit) l body w = (Normal tt, w1, evs)
             /\ never is_run evs = true).
  { apply for_each_total. intros item w0. unfold body. unfold_monad.
    destruct (sys_isfile (path_join path item) w0) as [[|] w1]; unfold_monad.
    - destruct (sys_unlink (path_join path item) w1) as [[e|[]] w2];
        unfold_monad; [rewrite isinstance_Exception|]; eauto.
    - destruct (sys_islink (path_join path item) w1) as [[|] w2]; unfold_monad.
      + destruct (sys_unlink (path_join path item) w2) as [[e|[]] w3];
          unfold_monad; [rewrite isinstance_Exception|]; eauto.
      + destruct (sys_isdir (path_join path item) w2) as [[|] w3];
          unfold_monad; [|eauto].
        destruct (sys_rmtree (path_join path item) w3) as [[e|[]] w4];
          unfold_monad; [rewrite isinstance_Exception|]; eauto. }
  unfold_monad. answer; unfold_monad; [|eauto].
  destruct (sys_listdir path w0) as [[e|items] w1]; unfold_monad.
  - rewrite isinstance_Exception. eauto.
  - destruct (Hloop items w1) as (w2 & ev2 & -> & Hev2).
    do 2 eexists. split; [reflexivity|].
    unfold never in *. cbn [forallb is_run negb andb].
    rewrite forallb_app, Hev2. reflexivity.
Qed.

End Helpers.

(** [run] executes a body to the end of each of its paths: helpers are
    replaced by their straight-line forms, the platform is asked for each
    answer, every test is decided. *)
Ltac decide_test :=
  match goal with
  | |- context [if says_mounted ?r then _ else _] =>
      destruct (says_mounted r) eqn:?
  | |- context [succeeded ?r] => destruct (succeeded r) eqn:?
  | |- context [seen ?r] =>
      let code := fresh "code" in
      let Hseen := fresh "Hseen" in
      destruct (seen r) as [[code ?] ?] eqn:Hseen;
      assert (succeeded r = (code =? 0)%Z)
        by (unfold succeeded, exit_code; rewrite Hseen; reflexivity)
  | |- context [if negb ?c then _ else _] => destruct c eqn:?
  | |- context [if ?c then _ else _] => destruct c eqn:?
  end.

Ltac call_helper :=
  match goal with
  | |- context [@unmount_share _ _ ?R ?s ?w] =>
      let Hu := fresh "Hunmount" in
      destruct (unmount_share_total R s w) as (? & ? & ? & Hu & ? & ?);
      rewrite Hu
  | |- context [@clean_directory _ _ ?R ?p ?w] =>
      let Hc := fresh "Hclean" in
      destruct (clean_directory_total R p w) as (? & ? & Hc & ?);
      rewrite Hc
  | |- context [@remove_pid_file _ _ ?R ?w] =>
      let Hrm := fresh "Hremove" in
      destruct (remove_pid_file_total R w) as (? & ? & Hrm & ? & ?);
      rewrite Hrm
  end.

Ltac run_with extra :=
  repeat first
    [ progress unfold_monad
    | rewrite isinstance_Exception
    | rewrite is_mounted_eq
    | rewrite is_accessible_eq
    | rewrite run_command_eq
    | rewrite manage_docker_eq by assumption
    | call_helper
    | extra
    | answer
    | decide_test ].

Ltac run := run_with fail.

(** [run_with known] follows the answers that the hypotheses give. *)
Ltac known :=
  idtac;
  match goal with
  | Hx : ?call = (_, _) |- context [?call] => rewrite Hx
  end.

(** Flattening of the traces [run] builds. *)
Ltac flatten :=
  repeat rewrite <- app_assoc; repeat rewrite app_nil_r; cbn [app].

(** Two descriptions of the same trace agree event by event. *)
Ltac unify_events :=
  repeat match goal with
         | Hx : _ :: _ = _ :: _ |- _ => injection Hx; clear Hx; intros
         | Hx : [] = _ :: _ |- _ => discriminate Hx
         | Hx : _ :: _ = [] |- _ => discriminate Hx
         end;
  repeat match goal with
         | Hx : EvRun _ _ _ = EvRun _ _ _ |- _ => injection Hx; clear Hx; intros
         end;
  subst; try discriminate; try congruence.

Ltac open_mount_share s :=
  unfold mount_share; cbv zeta;
  fold (server_of s) (remote_path_of s) (local_path_of s) (options_of s)
       (docker_of s) (name_of s);
  fold (mount_of s) (probe_of s).

(** ** [mount_share] *)

Section MountShare.
Context {W : Type} `{Platform W}.

(** C1: when the mount command succeeds, and the listing of the mount
    point that follows the 5-second pause fails, [mount_share] logs the
    error, calls [unmount_share] on the same share, and returns [False];
    the rest of the trace is the run of that [unmount_share].  This holds
    wherever the mount command stands in the trace.  The second part
    reads the same from the answers of the platform: for a complete
    share that is not mounted and is not to be cleared, when the
    directory is made, the mount command succeeds, the sleep returns and
    the listing fails, the run is these calls, the error line and the
    run of [unmount_share] from the world the listing left, and the
    result is [False]. *)
Theorem mount_share_unmounts_when_inaccessible (R : Type) (s : share) (w : W)
    (o : outcome R bool) (w' : W) (evs : list event) :
  mount_share s w = (o, w', evs) ->
  (forall pre r probe post,
      evs = pre ++ EvRun (mount_of s) None r :: EvSleep 5 (inr tt)
                :: EvRun (probe_of s) (Some 5) probe :: post ->
      succeeded r = true ->
      succeeded probe = false ->
      o = Normal false /\
      exists w2 w3 b tail,
        sys_subprocess_run (probe_of s) (Some 5) w2 = (probe, w3) /\
        post = EvLog ERROR
                 ("Le montage a réussi mais le partage n'est pas accessible: "
                  ++ local_path_of s) :: tail /\
        unmount_share (R := bool) s w3 = (Normal b, w', tail)) /\
  (forall w1 w2 w3 w4 w5 m r probe,
      forallb truthy [server_of s; remote_path_of s; local_path_of s;
                      options_of s] = true ->
      dict_get (sh_delete_on_mount s) false = false ->
      sys_mkdir_parents (local_path_of s) w = (inr tt, w1) ->
      sys_is_mount (local_path_of s) w1 = (m, w2) ->
      says_mounted m = false ->
      sys_subprocess_run (mount_of s) None w2 = (r, w3) ->
      succeeded r = true ->
      sys_sleep 5 w3 = (inr tt, w4) ->
      sys_subprocess_run (probe_of s) (Some 5) w4 = (probe, w5) ->
      succeeded probe = false ->
      o = Normal false /\
      exists b tail,
        unmount_share (R := bool) s w5 = (Normal b, w', tail) /\
        evs = [EvMkdir (local_path_of s) (inr tt);
               EvIsMount (local_path_of s) m;
               EvRun (mount_of s) None r;
               EvSleep 5 (inr tt);
               EvRun (probe_of s) (Some 5) probe;
               EvLog ERROR
                 ("Le montage a réussi mais le partage n'est pas accessible: "
                  ++ local_path_of s)] ++ tail).
Proof.
  intros Hrun. split.
  - revert Hrun. open_mount_share s.
    run; flatten; intros [= <- <- <-] pre r probe post Hevs Hr Hprobe;
      locate (runs "mount") Hevs; unify_events.
    all: split; [reflexivity|]; do 4 eexists;
      split; [eassumption|]; split; [reflexivity|eassumption].
  - intros w1 w2 w3 w4 w5 m r probe Hcomplete Hdelete Hmkdir Hm Hnot Hmount
      Hr Hsleep Hprobe Hfail.
    revert Hrun. open_mount_share s.
    rewrite Hcomplete, Hdelete. unfold probe_of in Hprobe.
    run_with known; flatten; intros [= <- <- <-]; try congruence.
    all: repeat match goal with
                | Hu : ?call = _, Hv : ?call = _ |- _ =>
                    rewrite Hu in Hv; injection Hv as <- <- <-
                end.
    all: split; [reflexivity|]; do 2 eexists; split; reflexivity.
Qed.

(** C3: a share with an empty [server], [remote_path], [local_path] or
    [options] makes [mount_share] log the incomplete configuration and
    return [False]; the log line is the only event and the world is left
    as it was (no directory created or cleared, no command run). *)
Theorem mount_share_rejects_incomplete (R : Type) (s : share) (w : W) :
  server_of s = "" \/ remote_path_of s = "" \/ local_path_of s = "" \/
  options_of s = "" ->
  mount_share (R := R) s w =
  (Normal false, w,
   [EvLog ERROR ("Configuration incomplète pour le partage: " ++ name_of s)]).
Proof.
  intros Hempty. open_mount_share s.
  assert (Hall : forallb truthy
                   [server_of s; remote_path_of s; local_path_of s;
                    options_of s] = false).
  { cbn [forallb]. destruct Hempty as [-> | [-> | [-> | ->]]];
      cbn [truthy String.eqb negb andb]; rewrite ?andb_false_r; reflexivity. }
  unfold_monad. rewrite Hall. reflexivity.
Qed.

(** C4: for a share with a workload, once the mount command has succeeded
    and the listing after the 5-second pause has succeeded too,
    [mount_share] runs [docker start] on the workload and returns whether
    that command succeeded: [False] if the start fails, [True] if it
    succeeds.  This holds wherever the mount command stands in the
    trace.  The second part reads the same from the answers of the
    platform: for a complete share that is not mounted and is not to be
    cleared, when the directory is made, the mount command succeeds, the
    sleep returns and the listing succeeds, the run is these calls, the
    line that logs the mount, [docker start] and its log line, followed
    by one more error line exactly when the start failed; the result is
    whether the start succeeded. *)
Theorem mount_share_starts_workload (R : Type) (s : share) (w : W)
    (o : outcome R bool) (w' : W) (evs : list event) :
  docker_of s <> "none" ->
  mount_share s w = (o, w', evs) ->
  (forall pre r probe post,
      evs = pre ++ EvRun (mount_of s) None r :: EvSleep 5 (inr tt)
                :: EvRun (probe_of s) (Some 5) probe :: post ->
      succeeded r = true ->
      succeeded probe = true ->
      exists start tail,
        post = EvLog INFO
                 ("Montage réussi et vérifié: " ++ server_of s ++ ":"
                  ++ remote_path_of s ++ " sur " ++ local_path_of s)
               :: EvRun ["docker"; "start"; docker_of s] None start :: tail /\
        o = Normal (succeeded start)) /\
  (forall w1 w2 w3 w4 w5 w6 m r probe start,
      forallb truthy [server_of s; remote_path_of s; local_path_of s;
                      options_of s] = true ->
      dict_get (sh_delete_on_mount s) false = false ->
      sys_mkdir_parents (local_path_of s) w = (inr tt, w1) ->
      sys_is_mount (local_path_of s) w1 = (m, w2) ->
      says_mounted m = false ->
      sys_subprocess_run (mount_of s) None w2 = (r, w3) ->
      succeeded r = true ->
      sys_sleep 5 w3 = (inr tt, w4) ->
      sys_subprocess_run (probe_of s) (Some 5) w4 = (probe, w5) ->
      succeeded probe = true ->
      sys_subprocess_run ["docker"; "start"; docker_of s] None w5
      = (start, w6) ->
      o = Normal (succeeded start) /\ w' = w6 /\
      exists lvl msg,
        evs = [EvMkdir (local_path_of s) (inr tt);
               EvIsMount (local_path_of s) m;
               EvRun (mount_of s) None r;
               EvSleep 5 (inr tt);
               EvRun (probe_of s) (Some 5) probe;
               EvLog INFO
                 ("Montage réussi et vérifié: " ++ server_of s ++ ":"
                  ++ remote_path_of s ++ " sur " ++ local_path_of s);
               EvRun ["docker"; "start"; docker_of s] None start;
               EvLog lvl msg]
              ++ (if succeeded start then []
                  else [EvLog ERROR
                          ("Échec du démarrage du conteneur Docker "
                           ++ docker_of s)])).
Proof.
  intros Hdocker Hrun. apply String.eqb_neq in Hdocker. split.
  - revert Hrun Hdocker. open_mount_share s. intros Hrun Hdocker.
    revert Hrun.
    run; flatten; intros [= <- <- <-] pre r probe post Hevs Hr Hprobe;
      locate (runs "mount") Hevs; unify_events.
    all: do 2 eexists; split; [reflexivity|congruence].
  - intros w1 w2 w3 w4 w5 w6 m r probe start Hcomplete Hdelete Hmkdir Hm
      Hnot Hmount Hr Hsleep Hprobe Hok Hstart.
    revert Hrun Hdocker. open_mount_share s. intros Hrun Hdocker.
    revert Hrun.
    rewrite Hcomplete, Hdelete. unfold probe_of in Hprobe.
    run_with known; flatten; intros [= <- <- <-]; try congruence.
    all: split; [reflexivity|]; split; [reflexivity|];
      do 2 eexists; reflexivity.
Qed.


End MountShare.

(** ** [unmount_share] *)

Section UnmountShare.
Context {W : Type} `{Platform W}.

(** C8: for a share with a non-empty [local_path], when the mount-table
    query of [unmount_share] answers that the path is not mounted (or
    fails, which [is_mounted] reads as not mounted), [unmount_share]
    returns [True] and the trace holds no [umount] command. *)
Theorem unmount_share_noop_when_unmounted (R : Type) (s : share) (w : W)
    (o : outcome R bool) (w' : W) (evs : list event) :
  local_path_of s <> "" ->
  unmount_share s w = (o, w', evs) ->
  forall pre m post,
    evs = pre ++ EvIsMount (local_path_of s) m :: post ->
    says_mounted m = false ->
    o = Normal true /\ never (runs "umount") evs = true.
Proof.
  intros Hpath. apply String.eqb_neq in Hpath.
  rewrite unmount_share_eq. cbv zeta. rewrite unmount_stop_eq.
  fold (local_path_of s) (docker_of s) (name_of s). rewrite Hpath.
  run; flatten; intros [= <- <- <-] pre m post Hevs Hm;
    locate is_mount_query Hevs; unify_events.
  all: split; reflexivity.
Qed.

Lemma complete_local_path (a b c d : string) :
  forallb truthy [a; b; c; d] = true -> (c =? "") = false.
Proof.
  cbn [forallb]. unfold truthy. destruct (c =? ""); [|reflexivity].
  rewrite !andb_false_r. discriminate.
Qed.

(** C10: for a share with a workload, (a) when the listing that follows a
    successful mount fails, the recovery [unmount_share] of [mount_share]
    runs [docker stop] on the workload, although the trace of the call
    holds no [docker start]; (b) in [unmount_share], [docker stop] runs
    before the mount table is queried, so it has run when the query
    answers that the share is not mounted. *)
Theorem workload_stopped_regardless (s : share) :
  docker_of s <> "none" ->
  (forall (R : Type) (w : W) (o : outcome R bool) (w' : W) (evs : list event),
      mount_share s w = (o, w', evs) ->
      forall pre r probe post,
        evs = pre ++ EvRun (mount_of s) None r :: EvSleep 5 (inr tt)
                  :: EvRun (probe_of s) (Some 5) probe :: post ->
        succeeded r = true ->
        succeeded probe = false ->
        never starts_workload evs = true /\
        exists msg stop tail,
          post = EvLog ERROR msg
                 :: EvRun ["docker"; "stop"; docker_of s] None stop :: tail) /\
  (forall (R : Type) (w : W) (o : outcome R bool) (w' : W) (evs : list event),
      unmount_share s w = (o, w', evs) ->
      forall pre m post,
        evs = pre ++ EvIsMount (local_path_of s) m :: post ->
        says_mounted m = false ->
        exists stop lvl msg,
          pre = [EvRun ["docker"; "stop"; docker_of s] None stop;
                 EvLog lvl msg]).
Proof.
  intros Hdocker. apply String.eqb_neq in Hdocker. split.
  - intros R w o w' evs. open_mount_share s.
    run; flatten; intros [= <- <- <-] pre r probe post Hevs Hr Hprobe;
      locate (runs "mount") Hevs; unify_events.
    all: split; [no_event|].
    all: match goal with
         | Hu : unmount_share ?sh _ = (_, _, ?tail),
           Hd : (docker_of ?sh =? "none") = false,
           Hc : forallb truthy _ = true |- context [?tail] =>
             revert Hu; rewrite unmount_share_eq; cbv zeta;
             rewrite unmount_stop_eq;
             fold (local_path_of sh) (docker_of sh) (name_of sh);
             rewrite Hd, (complete_local_path _ _ _ _ Hc)
         end.
    all: run; flatten; intros [= <- <- <-]; eauto.
  - intros R w o w' evs.
    rewrite unmount_share_eq. cbv zeta. rewrite unmount_stop_eq.
    fold (local_path_of s) (docker_of s) (name_of s). rewrite Hdocker.
    run; flatten; intros [= <- <- <-] pre m post Hevs Hm;
      locate is_mount_query Hevs; unify_events; eauto.
Qed.

End UnmountShare.

(** ** The PID file *)

Section PidFile.
Context {W : Type} `{Platform W}.

(** C6: [is_running] always returns a bool.  When there is no PID file
    it returns [False]; when the file cannot be read it returns [False];
    when the file names a process that [os.kill(pid, 0)] does not find,
    it calls [remove_pid_file], so that [os.remove] is called on the PID
    file if it is still there, and returns [False]. *)
Theorem is_running_stale_pid_file (R : Type) (w : W)
    (o : outcome R bool) (w' : W) (evs : list event) :
  is_running w = (o, w', evs) ->
  (exists b, o = Normal b) /\
  (forall post,
      evs = EvExists PID_FILE false :: post ->
      o = Normal false /\ post = []) /\
  (forall e post,
      evs = EvExists PID_FILE true :: EvReadText PID_FILE (inl e) :: post ->
      o = Normal false /\ post = []) /\
  (forall content pid e post,
      evs = EvExists PID_FILE true :: EvReadText PID_FILE (inr content)
            :: EvKill pid 0 (inl e) :: post ->
      isinstance e OSError = true ->
      py_int (py_strip content) = inr pid /\
      o = Normal false /\
      pid_file_removal post /\
      exists w1, remove_pid_file (R := bool) w1 = (Normal tt, w', post)).
Proof.
  unfold is_running.
  run; flatten; intros [= <- <- <-].
  all: split; [eauto|]; split; [|split].
  all: try (intros post Hevs; unify_events; split; reflexivity).
  all: try (intros e' post Hevs; unify_events; split; reflexivity).
  all: try (intros content pid e' post Hevs He; unify_events).
  all: eauto 10.
Qed.


End PidFile.


Section StopInstance.
Context {W : Type} `{Platform W}.


End StopInstance.

(** ** The reconciliation loop and the cleanup *)

Section Loop.
Context {W : Type} `{Platform W}.
Variable self : NFSManager.

(** [mount_share] always returns a bool: every exception is caught. *)
Lemma mount_share_total (R : Type) (s : share) (w : W) :
  exists b w1 evs, mount_share (R := R) s w = (Normal b, w1, evs).
Proof.
  open_mount_share s. run; eauto.
Qed.

Lemma read_config_eq (R : Type) (w : W) :
  read_config self (R := R) w =
  let '(r, w1) := sys_json_load (config_file self) w in
  match r with
  | inr (Object cfg) =>
      (Normal (dict_get (cfg_shares cfg) (Elements [])), w1,
       [EvJsonLoad (config_file self) r])
  | inr (NotObject t) =>
      (Raise (attribute_error t), w1, [EvJsonLoad (config_file self) r])
  | inl e =>
      if isinstance e FileNotFoundError then
        (Exit 1%Z, w1,
         [EvJsonLoad (config_file self) r;
          EvLog ERROR
            ("Fichier de configuration non trouvé: " ++ config_file self)])
      else if isinstance e JSONDecodeError then
        (Exit 1%Z, w1,
         [EvJsonLoad (config_file self) r;
          EvLog ERROR
            ("Erreur de syntaxe dans le fichier JSON: " ++ exn_str e)])
      else (Raise e, w1, [EvJsonLoad (config_file self) r])
  end.
Proof.
  unfold read_config. unfold_monad.
  destruct (sys_json_load (config_file self) w) as [[e|[cfg|t]] w1];
    unfold_monad.
  - destruct (isinstance e FileNotFoundError); [reflexivity|].
    destruct (isinstance e JSONDecodeError); reflexivity.
  - reflexivity.
  - reflexivity.
Qed.

(** A loop whose body always falls through handles every element. *)
Lemma for_each_in_turn (R A : Type) (f : A -> M W R unit) :
  (forall x w, exists w1 evs, f x w = (Normal tt, w1, evs)) ->
  forall l w, exists w' evs,
    for_each l f w = (Normal tt, w', evs) /\ each_in_turn f l w w' evs.
Proof.
  intros Hf. induction l as [|x l IH]; intros w; simpl.
  - unfold ret. eauto.
  - unfold bind. destruct (Hf x w) as (w1 & ev1 & Hx). rewrite Hx.
    destruct (IH w1) as (w2 & ev2 & -> & Hrest).
    do 2 eexists. split; [reflexivity|]. eauto 6.
Qed.

(** A loop over elements whose body falls through on every dict and
    raises on anything else: the dicts at the head of the list are
    handled in turn, and the first other element ends the loop. *)
Lemma for_each_leading (R : Type) (f : element -> M W R unit) :
  (forall s w, exists w1 evs, f (Dict s) w = (Normal tt, w1, evs)) ->
  (forall t w, f (Other t) w = (Raise (attribute_error t), w, [])) ->
  forall l w, exists w' evs,
    for_each l f w = (loop_outcome (snd (leading_dicts l)), w', evs) /\
    each_in_turn f (map Dict (fst (leading_dicts l))) w w' evs.
Proof.
  intros Hdict Hother. induction l as [|[s|t] l IH]; intros w.
  - simpl. unfold ret. eauto.
  - cbn [for_each leading_dicts]. unfold bind.
    destruct (Hdict s w) as (w1 & ev1 & Hs). rewrite Hs.
    destruct (IH w1) as (w2 & ev2 & -> & Hrest).
    destruct (leading_dicts l) as [ds stop]. cbn [fst snd map] in *.
    do 2 eexists. split; [reflexivity|].
    cbn [each_in_turn]. eauto 6.
  - cbn [for_each leading_dicts fst snd map each_in_turn]. unfold bind.
    rewrite Hother. eauto.
Qed.

(** One iteration of the loop of [check_shares] on a dict always falls
    through. *)
Lemma check_share_total (R : Type) (s : share) (w : W) :
  exists w1 evs, check_share (R := R) (Dict s) w = (Normal tt, w1, evs).
Proof.
  unfold check_share, check_share_body, get_method. cbv zeta.
  run_with ltac:(idtac; match goal with
                 | |- context [@mount_share _ _ ?R' ?s' ?w'] =>
                     destruct (mount_share_total R' s' w')
                       as (? & ? & ? & ->)
                 end); eauto.
Qed.

(** On a value that is not a dict the iteration raises: the block fails
    at [share.get], and so does the handler. *)
Lemma check_share_other (R : Type) (t : pytype) (w : W) :
  check_share (R := R) (Other t) w = (Raise (attribute_error t), w, []).
Proof. reflexivity. Qed.

(** [unmount_share] with its result dropped, as [cleanup] calls it. *)
Lemma discard_unmount_total (R : Type) (s : share) (w : W) :
  exists w1 evs,
    discard (on_element (unmount_share (R := R)) (Dict s)) w =
    (Normal tt, w1, evs).
Proof.
  unfold discard, on_element, bind, ret.
  destruct (unmount_share_total R s w) as (b & w1 & evs & -> & _). eauto.
Qed.

Lemma discard_unmount_other (R : Type) (t : pytype) (w : W) :
  discard (on_element (unmount_share (R := R)) (Other t)) w =
  (Raise (attribute_error t), w, []).
Proof. reflexivity. Qed.

End Loop.

(** ** The properties on the concrete host *)

Module OnHost.
Import Sim.

(** C1 on [stale_host]: the mount succeeds, the listing times out;
    [mount_share] logs it, stops the container, unmounts the share and
    returns [False], and the mount table is empty again. *)
Lemma mount_share_unmounts_when_inaccessible_witness :
  succeeded (inr (0%Z, "", "")) = true /\
  succeeded (inl (mk_exn TimeoutExpired "timed out")) = false /\
  result (mount_share app_share stale_host) = Normal false /\
  trace (mount_share app_share stale_host) =
  [EvMkdir "/mnt/data" (inr tt);
   EvIsMount "/mnt/data" (inr false);
   EvRun ["mount"; "-t"; "nfs"; "nfs1:/export/data"; "/mnt/data"; "-o"; "ro"]
     None (inr (0%Z, "", ""));
   EvSleep 5 (inr tt);
   EvRun ["ls"; "/mnt/data"] (Some 5)
     (inl (mk_exn TimeoutExpired "timed out"));
   EvLog ERROR
     "Le montage a réussi mais le partage n'est pas accessible: /mnt/data"]
  ++ trace (unmount_share app_share (set_mounted stale_host ["/mnt/data"])) /\
  trace (unmount_share app_share (set_mounted stale_host ["/mnt/data"])) =
  [EvRun ["docker"; "stop"; "app1"] None (inr (0%Z, "app1", ""));
   EvLog INFO "Docker stop réussi pour app1";
   EvIsMount "/mnt/data" (inr true);
   EvRun ["umount"; "-f"; "/mnt/data"] None (inr (0%Z, "", ""));
   EvLog INFO "Démontage réussi: /mnt/data"] /\
  mounted (final (mount_share app_share stale_host)) = [].
Proof.
  split; [reflexivity|]. split; [reflexivity|].
  destruct (@mount_share_unmounts_when_inaccessible host host_platform unit
              app_share stale_host _ _ _ (triple_eta _ _ _ _))
    as [_ Hpath].
  destruct (Hpath stale_host stale_host
              (set_mounted stale_host ["/mnt/data"])
              (set_mounted stale_host ["/mnt/data"])
              (set_mounted stale_host ["/mnt/data"])
              (inr false) (inr (0%Z, "", ""))
              (inl (mk_exn TimeoutExpired "timed out"))
              eq_refl eq_refl eq_refl eq_refl eq_refl eq_refl eq_refl
              eq_refl eq_refl eq_refl)
    as (Hresult & b & tail & Hunmount & Hevs).
  split; [exact Hresult|].
  split; [|split; reflexivity].
  apply (f_equal snd) in Hunmount. cbn [snd] in Hunmount.
  unfold trace. rewrite Hevs, <- Hunmount. reflexivity.
Defined.

(** C3 on a share without [options]. *)
Lemma mount_share_rejects_incomplete_witness :
  options_of incomplete_share = "" /\
  mount_share (R := unit) incomplete_share (fresh []) =
  (Normal false, fresh [],
   [EvLog ERROR "Configuration incomplète pour le partage: data"]).
Proof.
  split; [reflexivity|].
  apply (@mount_share_rejects_incomplete host host_platform unit incomplete_share (fresh [])).
  right. right. right. reflexivity.
Defined.

(** C4 on two hosts.  On a host without trouble the container is started
    and [mount_share] returns [True]; on [broken_docker_host] Docker
    cannot start it, one more error is logged and [mount_share] returns
    [False]. *)
Lemma mount_share_starts_workload_witness :
  docker_of app_share <> "none" /\
  (result (mount_share app_share (fresh [app_share])) = Normal true /\
   trace (mount_share app_share (fresh [app_share])) =
   [EvMkdir "/mnt/data" (inr tt);
    EvIsMount "/mnt/data" (inr false);
    EvRun ["mount"; "-t"; "nfs"; "nfs1:/export/data"; "/mnt/data"; "-o"; "ro"]
      None (inr (0%Z, "", ""));
    EvSleep 5 (inr tt);
    EvRun ["ls"; "/mnt/data"] (Some 5) (inr (0%Z, "", ""));
    EvLog INFO "Montage réussi et vérifié: nfs1:/export/data sur /mnt/data";
    EvRun ["docker"; "start"; "app1"] None (inr (0%Z, "app1", ""));
    EvLog INFO "Docker start réussi pour app1"]) /\
  (result (mount_share app_share broken_docker_host) = Normal false /\
   trace (mount_share app_share broken_docker_host) =
   [EvMkdir "/mnt/data" (inr tt);
    EvIsMount "/mnt/data" (inr false);
    EvRun ["mount"; "-t"; "nfs"; "nfs1:/export/data"; "/mnt/data"; "-o"; "ro"]
      None (inr (0%Z, "", ""));
    EvSleep 5 (inr tt);
    EvRun ["ls"; "/mnt/data"] (Some 5) (inr (0%Z, "", ""));
    EvLog INFO "Montage réussi et vérifié: nfs1:/export/data sur /mnt/data";
    EvRun ["docker"; "start"; "app1"] None
      (inr (1%Z, "", "Error response from daemon"));
    EvLog ERROR "Échec du start Docker pour app1: Error response from daemon";
    EvLog ERROR "Échec du démarrage du conteneur Docker app1"]).
Proof.
  assert (Hdocker : docker_of app_share <> "none")
    by (apply String.eqb_neq; reflexivity).
  split; [exact Hdocker|]. split.
  - destruct (@mount_share_starts_workload host host_platform unit app_share
                (fresh [app_share]) _ _ _ Hdocker (triple_eta _ _ _ _))
      as [_ Hpath].
    destruct (Hpath (fresh [app_share]) (fresh [app_share])
                (set_mounted (fresh [app_share]) ["/mnt/data"])
                (set_mounted (fresh [app_share]) ["/mnt/data"])
                (set_mounted (fresh [app_share]) ["/mnt/data"])
                (set_mounted (fresh [app_share]) ["/mnt/data"])
                (inr false) (inr (0%Z, "", "")) (inr (0%Z, "", ""))
                (inr (0%Z, "app1", ""))
                eq_refl eq_refl eq_refl eq_refl eq_refl eq_refl eq_refl
                eq_refl eq_refl eq_refl eq_refl)
      as (Hresult & _ & lvl & msg & Hevs).
    split; [exact Hresult|reflexivity].
  - destruct (@mount_share_starts_workload host host_platform unit app_share
                broken_docker_host _ _ _ Hdocker (triple_eta _ _ _ _))
      as [_ Hpath].
    destruct (Hpath broken_docker_host broken_docker_host
                (set_mounted broken_docker_host ["/mnt/data"])
                (set_mounted broken_docker_host ["/mnt/data"])
                (set_mounted broken_docker_host ["/mnt/data"])
                (set_mounted broken_docker_host ["/mnt/data"])
                (inr false) (inr (0%Z, "", "")) (inr (0%Z, "", ""))
                (inr (1%Z, "", "Error response from daemon"))
                eq_refl eq_refl eq_refl eq_refl eq_refl eq_refl eq_refl
                eq_refl eq_refl eq_refl eq_refl)
      as (Hresult & _ & lvl & msg & Hevs).
    split; [exact Hresult|reflexivity].
Defined.


(** C8 on a host where nothing is mounted. *)
Lemma unmount_share_noop_when_unmounted_witness :
  local_path_of plain_share <> "" /\
  says_mounted (inr false) = false /\
  result (unmount_share plain_share (fresh [])) = Normal true /\
  never (runs "umount") (trace (unmount_share plain_share (fresh []))) = true.
Proof.
  assert (Hpath : local_path_of plain_share <> "")
    by (apply String.eqb_neq; reflexivity).
  split; [exact Hpath|]. split; [reflexivity|].
  assert (Hevs : trace (unmount_share plain_share (fresh [])) =
                 [] ++ EvIsMount (local_path_of plain_share) (inr false)
                 :: skipn 1 (trace (unmount_share plain_share (fresh []))))
    by reflexivity.
  exact (@unmount_share_noop_when_unmounted host host_platform unit
           plain_share (fresh []) _ _ _ Hpath (triple_eta _ _ _ _)
           _ _ _ Hevs eq_refl).
Defined.

(** C10 on [stale_host] and on a host where nothing is mounted: in both
    runs [docker stop app1] is issued, and no [docker start]. *)
Lemma workload_stopped_regardless_witness :
  docker_of app_share <> "none" /\
  never starts_workload (trace (mount_share app_share stale_host)) = true /\
  (exists msg stop tail,
      skipn 5 (trace (mount_share app_share stale_host)) =
      EvLog ERROR msg :: EvRun ["docker"; "stop"; "app1"] None stop :: tail) /\
  (exists stop lvl msg,
      firstn 2 (trace (unmount_share app_share (fresh []))) =
      [EvRun ["docker"; "stop"; "app1"] None stop; EvLog lvl msg]).
Proof.
  assert (Hdocker : docker_of app_share <> "none")
    by (apply String.eqb_neq; reflexivity).
  split; [exact Hdocker|].
  destruct (@workload_stopped_regardless host host_platform app_share Hdocker)
    as [Hmount Hunmount].
  assert (Hevs : trace (mount_share app_share stale_host) =
                 [EvMkdir "/mnt/data" (inr tt);
                  EvIsMount "/mnt/data" (inr false)]
                 ++ EvRun (mount_of app_share) None (inr (0%Z, "", ""))
                 :: EvSleep 5 (inr tt)
                 :: EvRun (probe_of app_share) (Some 5)
                      (inl (mk_exn TimeoutExpired "timed out"))
                 :: skipn 5 (trace (mount_share app_share stale_host)))
    by reflexivity.
  destruct (Hmount unit stale_host _ _ _ (triple_eta _ _ _ _)
              _ _ _ _ Hevs eq_refl eq_refl) as [Hnever Hstop].
  split; [exact Hnever|]. split; [exact Hstop|].
  assert (Hevs' : trace (unmount_share app_share (fresh [])) =
                  firstn 2 (trace (unmount_share app_share (fresh [])))
                  ++ EvIsMount (local_path_of app_share) (inr false)
                  :: skipn 3 (trace (unmount_share app_share (fresh []))))
    by reflexivity.
  exact (Hunmount unit (fresh []) _ _ _ (triple_eta _ _ _ _)
           _ _ _ Hevs' eq_refl).
Defined.

(** C6 on [stale_pid_host]: process 4242 is gone; [is_running] answers
    [False] and the PID file is no longer there. *)
Lemma is_running_stale_pid_file_witness :
  isinstance no_such_process OSError = true /\
  result (is_running stale_pid_host) = Normal false /\
  pid_file_removal (skipn 3 (trace (is_running stale_pid_host))) /\
  pid_file (final (is_running stale_pid_host)) = None.
Proof.
  split; [reflexivity|].
  destruct (@is_running_stale_pid_file host host_platform unit
              stale_pid_host _ _ _ (triple_eta _ _ _ _))
    as (_ & _ & _ & Hstale).
  assert (Hevs : trace (is_running stale_pid_host) =
                 EvExists PID_FILE true :: EvReadText PID_FILE (inr "4242")
                 :: EvKill 4242 0 (inl no_such_process)
                 :: skipn 3 (trace (is_running stale_pid_host)))
    by reflexivity.
  destruct (Hstale _ _ _ _ Hevs eq_refl) as (_ & Hresult & Hremoval & _).
  split; [exact Hresult|]. split; [exact Hremoval|]. reflexivity.
Defined.



(** C2 fails on [malformed_host], whose [shares] list holds a string
    before the share of [/mnt/data].  The iteration on the string raises
    [AttributeError] in its block and again in its handler: the
    exception leaves [check_shares], nothing is logged, and the share
    that follows is never looked at: the load of the configuration is
    the only event, and [/mnt/data] is not mounted.  The same share,
    alone in the list, is mounted by [check_shares]. *)
Theorem check_shares_stops_at_malformed_element :
  conf malformed_host =
  inr (Object (mk_config (Some (Elements [Other TStr; Dict plain_share])))) /\
  check_shares (R := unit) manager malformed_host =
  (Raise (mk_exn AttributeError "'str' object has no attribute 'get'"),
   malformed_host,
   [EvJsonLoad (config_file manager) (conf malformed_host)]) /\
  mounted (final (check_shares manager malformed_host)) = [] /\
  result (check_shares manager (fresh [plain_share])) = Normal tt /\
  mounted (final (check_shares manager (fresh [plain_share]))) = ["/mnt/data"].
Proof.
  repeat split; reflexivity.
Qed.

(** C9 fails on [no_config_host]: the configuration file is gone, and
    [cleanup] exits the process with status 1 instead of returning; the
    PID file is removed and both shares are still mounted.  It fails on
    [malformed_shutdown_host] too: the string in the list makes
    [unmount_share] raise [AttributeError] out of its handler, [cleanup]
    raises, and [/mnt/data], which follows, is still mounted. *)
Theorem cleanup_gives_up_without_unmounting :
  (result (cleanup manager no_config_host) = Exit 1%Z /\
   pid_file (final (cleanup manager no_config_host)) = None /\
   mounted (final (cleanup manager no_config_host)) =
   ["/mnt/logs"; "/mnt/data"] /\
   never (runs "umount") (trace (cleanup manager no_config_host)) = true) /\
  (result (cleanup manager malformed_shutdown_host) =
   Raise (mk_exn AttributeError "'str' object has no attribute 'get'") /\
   mounted (final (cleanup manager malformed_shutdown_host)) = ["/mnt/data"] /\
   never (runs "umount") (trace (cleanup manager malformed_shutdown_host))
   = true).
Proof.
  repeat split; reflexivity.
Qed.

End OnHost.
